(** * helios: the ISR stub generator [kernel/arch/i386/genisr.py]

    The script opens [isr.asm] for writing and emits, by a straight run of
    [of.write] calls and two [for i in range(32)] loops, the textual
    interrupt-service-routine stubs of the first 32 vectors.

    The development has three layers:
    - [PyFile]: the file operations the script performs ([open] in mode
      ["w"], [write], [close]) as a state monad over a disk;
    - [Genisr]: the script itself, statement by statement;
    - [Asm]: a reader for the emitted text (lines, records separated by
      blank lines, one instruction per line), used to state what the
      generated document contains.

    The script is also given once over an interface of file operations
    ([FileOps]), run on the disk of [PyFile] and on [PyStrict], where a
    closed file object refuses writes. *)

From Stdlib Require Import String Ascii List Arith Bool Lia.
From Stdlib Require Import DecimalString DecimalNat.
From Stdlib Require Import Sorted.
Import ListNotations.

Local Open Scope string_scope.
Local Open Scope list_scope.

(** The line-feed character; Python's ["\n"]. *)
Definition LF : string := String (ascii_of_nat 10) EmptyString.

(** ** Files *)

Module PyFile.

(** A disk maps a path to the bytes stored under it. *)
Definition disk : Type := string -> option string.

Definition empty_disk : disk := fun _ => None.

Definition store (d : disk) (path data : string) : disk :=
  fun p => if String.eqb p path then Some data else d p.

(** Bytes currently under [path]; a missing file reads as empty. *)
Definition contents (d : disk) (path : string) : string :=
  match d path with
  | Some s => s
  | None => EmptyString
  end.

(** Computations over the disk. *)
Definition IO (A : Type) : Type := disk -> A * disk.

Definition ret {A : Type} (a : A) : IO A := fun d => (a, d).

Definition bind {A B : Type} (c : IO A) (k : A -> IO B) : IO B :=
  fun d => let (a, d') := c d in k a d'.

Definition exec {A : Type} (c : IO A) (d : disk) : disk := snd (c d).

(** An open file object is known by the path it was opened on. *)
Definition file : Type := string.

(** [open(path, "w")]: the file is created, or truncated when present. *)
Definition open_w (path : string) : IO file :=
  fun d => (path, store d path EmptyString).

(** [f.write(s)]: the bytes of [s] go after what the file holds. *)
Definition write (f : file) (s : string) : IO unit :=
  fun d => (tt, store d f (contents d f ++ s)).

(** [f.close()]: nothing is left to flush in this model. *)
Definition close (f : file) : IO unit := ret tt.

(** [for x in xs: body x] *)
Fixpoint for_each {A : Type} (xs : list A) (body : A -> IO unit) : IO unit :=
  match xs with
  | [] => ret tt
  | x :: rest => bind (body x) (fun _ => for_each rest body)
  end.

(** [appends path c t]: whatever the disk, running [c] leaves under [path] what
    was there followed by [t]. *)
Definition appends (path : file) (c : IO unit) (t : string) : Prop :=
  forall d, contents (exec c d) path = (contents d path ++ t)%string.

End PyFile.

Declare Scope io_scope.
Delimit Scope io_scope with io.
Notation "x <- c ;; k" := (PyFile.bind c (fun x => k))
  (at level 61, c at next level, right associativity) : io_scope.
Notation "c ;; k" := (PyFile.bind c (fun _ => k))
  (at level 61, right associativity) : io_scope.

(** ** The generator *)

Module Genisr.
Import PyFile.
Local Open Scope io_scope.

(** Python's [range(n)]. *)
Definition range (n : nat) : list nat := seq 0 n.

(** Python's [str(i)], as the f-strings [{i}] render an [int]. *)
Definition str (i : nat) : string := NilEmpty.string_of_uint (Nat.to_uint i).

(** [eisr = [8, 10, 11, 12, 13, 14]] *)
Definition eisr : list nat := [8; 10; 11; 12; 13; 14].

(** [i in eisr] *)
Definition in_eisr (i : nat) : bool := existsb (Nat.eqb i) eisr.

(** The file object is the script's [of], written [of_] here.
    The body of the first loop: [of.write(f"global isr{i}\n")]. *)
Definition global_tag (of_ : file) (i : nat) : IO unit :=
  write of_ ("global isr" ++ str i ++ LF).

(** The body of the second loop.  The two [continue] statements end the
    iteration, so each guarded block is a branch of its own. *)
Definition isr_body (of_ : file) (i : nat) : IO unit :=
  if Nat.eqb i 0 then
    write of_ (LF ++ "; Divide by 0" ++ LF) ;;
    write of_ ("    cli ; Disable interrupts" ++ LF) ;;
    write of_ ("    push byte 0 ; push a dummy error code" ++ LF) ;;
    write of_ ("    push byte 0 ; push the isr code" ++ LF) ;;
    write of_ ("    jmp_isr_common_stub" ++ LF)
  else if Nat.eqb i 8 then
    write of_ (LF ++ "; Double Fault Exception" ++ LF) ;;
    write of_ ("    cli ; Disable interrupts" ++ LF) ;;
    write of_
      ("    ; We don't push a dummy error code since this interrupt comes with one"
         ++ LF) ;;
    write of_ ("    push byte 0 ; push the isr code" ++ LF) ;;
    write of_ ("    jmp_isr_common_stub" ++ LF)
  else
    write of_ LF ;;
    write of_ ("isr" ++ str i ++ ":" ++ LF) ;;
    write of_ ("    cli" ++ LF) ;;
    (if negb (in_eisr i) then write of_ ("    push byte 0" ++ LF) else ret tt) ;;
    write of_ ("    push byte " ++ str i ++ LF) ;;
    write of_ ("    jmp isr_common_stub" ++ LF).

(** The whole script. *)
Definition main : IO unit :=
  of_ <- open_w "isr.asm" ;;
  write of_ ("; A bunch of Interrupt Service Routines (ISRs)" ++ LF) ;;
  write of_ ("; For info on each ISR see isr.md in Documentation" ++ LF) ;;
  for_each (range 32) (global_tag of_) ;;
  write of_ (LF ++ "; ISR definitions" ++ LF) ;;
  for_each (range 32) (isr_body of_) ;;
  close of_.

(** What a run leaves in [isr.asm], starting from a disk [d]. *)
Definition generate (d : disk) : string := contents (exec main d) "isr.asm".

(** The Output Document: the run on the empty disk. *)
Definition output_document : string := generate empty_disk.

(** The text one iteration of the second loop contributes. *)
Definition stub_text (i : nat) : string :=
  contents (exec (isr_body "isr.asm" i) (store empty_disk "isr.asm" EmptyString))
           "isr.asm".

End Genisr.

(** ** Reading the emitted assembly *)

Module Asm.

(** Python's [str.splitlines] for text whose only line break is the line
    feed: the pieces between line feeds, without a last empty piece. *)
Fixpoint split_lines (s : string) : list string :=
  match s with
  | EmptyString => []
  | String c rest =>
      if Ascii.eqb c (ascii_of_nat 10) then EmptyString :: split_lines rest
      else match split_lines rest with
           | [] => [String c EmptyString]
           | l :: ls => String c l :: ls
           end
  end.

(** The code part of a line (up to the first [;]) and, when there is one,
    the comment after it. *)
Fixpoint cut_comment (s : string) : string * option string :=
  match s with
  | EmptyString => (EmptyString, None)
  | String c rest =>
      if Ascii.eqb c ";"%char then (EmptyString, Some rest)
      else let (code, cm) := cut_comment rest in (String c code, cm)
  end.

(** The space-separated words of a piece of code. *)
Fixpoint words (s : string) : list string :=
  match s with
  | EmptyString => []
  | String c rest =>
      if Ascii.eqb c " "%char then EmptyString :: words rest
      else match words rest with
           | [] => [String c EmptyString]
           | w :: ws => String c w :: ws
           end
  end.

Definition nonempty (s : string) : bool := negb (String.eqb s EmptyString).

Definition tokens (s : string) : list string := filter nonempty (words s).

(** A decimal literal. *)
Definition parse_nat (s : string) : option nat :=
  option_map Nat.of_uint (NilZero.uint_of_string s).

(** [Some name] when the word is [name:]. *)
Fixpoint label_name (w : string) : option string :=
  match w with
  | EmptyString => None
  | String c EmptyString => if Ascii.eqb c ":"%char then Some EmptyString else None
  | String c rest => option_map (String c) (label_name rest)
  end.

(** The shapes of line the generated file is made of.  A line that is none
    of them is kept, by its words, as [Other]: to the assembler a lone
    identifier such as [foo_bar] is not an instruction. *)
Inductive line : Type :=
| Blank
| Comment (text : string)
| Global (sym : string)
| Label (sym : string)
| Cli
| PushByte (n : nat)
| Jmp (target : string)
| Other (ws : list string).

Definition classify (s : string) : line :=
  let (code, cm) := cut_comment s in
  match tokens code with
  | [] => match cm with Some t => Comment t | None => Blank end
  | ["cli"] => Cli
  | ["global"; sym] => Global sym
  | ["jmp"; target] => Jmp target
  | ["push"; "byte"; lit] =>
      match parse_nat lit with
      | Some n => PushByte n
      | None => Other (tokens code)
      end
  | [w] => match label_name w with
           | Some sym => Label sym
           | None => Other [w]
           end
  | ws => Other ws
  end.

Definition line_eq_dec (a b : line) : {a = b} + {a <> b}.
Proof.
  decide equality;
    first [ apply string_dec | apply Nat.eq_dec | apply (list_eq_dec string_dec) ].
Defined.

(** *** The two blocks of the document *)

(** The comment line the script writes between the declarations and the
    stubs. *)
Definition section_mark : string := "; ISR definitions".

Fixpoint before_mark (ls : list string) : list string :=
  match ls with
  | [] => []
  | l :: rest => if String.eqb l section_mark then [] else l :: before_mark rest
  end.

Fixpoint after_mark (ls : list string) : list string :=
  match ls with
  | [] => []
  | l :: rest => if String.eqb l section_mark then rest else after_mark rest
  end.

(** Runs of lines between blank lines. *)
Fixpoint paragraphs (ls : list string) : list (list string) :=
  match ls with
  | [] => []
  | l :: rest =>
      if String.eqb l EmptyString then [] :: paragraphs rest
      else match paragraphs rest with
           | [] => [[l]]
           | p :: ps => (l :: p) :: ps
           end
  end.

Definition has_lines (p : list string) : bool :=
  match p with [] => false | _ :: _ => true end.

Definition declaration_block (doc : string) : list string :=
  before_mark (split_lines doc).

Definition stub_block (doc : string) : list string :=
  after_mark (split_lines doc).

(** The Stub Records of a document: the blank-line separated runs of its
    stub block, each read line by line. *)
Definition stub_records (doc : string) : list (list line) :=
  map (map classify) (filter has_lines (paragraphs (stub_block doc))).

(** *** What a record does *)

Definition push_value (l : line) : list nat :=
  match l with PushByte n => [n] | _ => [] end.

(** The literals pushed by a record, in program order. *)
Definition pushes (r : list line) : list nat := flat_map push_value r.

(** The vector-number push is the last push of a record. *)
Definition vector_push (r : list line) : option nat :=
  match rev (pushes r) with
  | v :: _ => Some v
  | [] => None
  end.

(** The pushes that precede the vector-number push: the dummy error codes. *)
Definition dummy_pushes (r : list line) : list nat := removelast (pushes r).

(** The shared dispatch routine. *)
Definition common_stub : string := "isr_common_stub".

Definition is_dispatch_jump (l : line) : bool :=
  match l with Jmp t => String.eqb t common_stub | _ => false end.

(** The pushes executed before the first jump to the dispatch routine;
    [None] when the record has no such jump. *)
Fixpoint pushes_before_jump (r : list line) : option (list nat) :=
  match r with
  | [] => None
  | l :: rest =>
      if is_dispatch_jump l then Some []
      else option_map (app (push_value l)) (pushes_before_jump rest)
  end.

(** The record's last line is [jmp isr_common_stub]. *)
Definition ends_with_dispatch_jump (r : list line) : bool :=
  match rev r with
  | l :: _ => is_dispatch_jump l
  | [] => false
  end.

Definition label_value (l : line) : list string :=
  match l with Label s => [s] | _ => [] end.

Definition global_value (l : line) : list string :=
  match l with Global s => [s] | _ => [] end.

(** The symbols a run of lines defines, and the ones it exports. *)
Definition labels (r : list line) : list string := flat_map label_value r.
Definition globals (r : list line) : list string := flat_map global_value r.

(** The vector index in a handler name [isr<N>]. *)
Definition isr_index (sym : string) : option nat :=
  match sym with
  | String "i" (String "s" (String "r" digits)) => parse_nat digits
  | _ => None
  end.

Fixpoint somes {A : Type} (xs : list (option A)) : list A :=
  match xs with
  | [] => []
  | Some a :: rest => a :: somes rest
  | None :: rest => somes rest
  end.

End Asm.

Import Genisr Asm.

(** The document, read. *)
Definition document_lines : list line := map classify (split_lines output_document).

Definition records : list (list line) := stub_records output_document.

(** The Stub Record of vector [N]: the [N]-th record of the document. *)
Definition stub_record (N : nat) : list line := nth N records [].

(** The record the second loop's iteration [i] writes, read on its own. *)
Definition emitted_record (i : nat) : list line :=
  map classify (filter nonempty (split_lines (stub_text i))).

(** The name of the handler of vector [N], as the f-strings build it. *)
Definition handler_name (N : nat) : string := ("isr" ++ str N)%string.

(** The indices the declaration block exports, in the order it lists them. *)
Definition declared_indices : list (option nat) :=
  map isr_index (globals (map classify (declaration_block output_document))).

(** The indices the stub block defines a label for, in the order it lists
    them. *)
Definition labelled_indices : list (option nat) :=
  map isr_index (labels (map classify (stub_block output_document))).

Definition list_nat_eqb (a b : list nat) : bool :=
  if list_eq_dec Nat.eq_dec a b then true else false.

Definition option_list_nat_eqb (a b : option (list nat)) : bool :=
  match a, b with
  | Some x, Some y => list_nat_eqb x y
  | None, None => true
  | _, _ => false
  end.

(** The reading of "exactly two explicit pushes before the dispatch jump":
    the trace of stub [N] up to its [jmp isr_common_stub] performs two
    pushes, an error code [e] and then a vector number [v]. *)
Definition two_pushes_before_jump (N : nat) : Prop :=
  exists e v, pushes_before_jump (stub_record N) = Some [e; v].

(** A cli, a push or a comment: what stands between a stub's label and its
    jump. *)
Definition normalizing (l : line) : bool :=
  match l with
  | Cli | PushByte _ | Comment _ => true
  | _ => false
  end.

(** The shape of a Stub Record of vector [N]: the label [isr<N>], then
    normalization instructions, then the jump to the dispatch routine. *)
Definition has_stub_shape (N : nat) (r : list line) : bool :=
  match r with
  | Label sym :: rest =>
      String.eqb sym (handler_name N)
      && forallb normalizing (removelast rest)
      && ends_with_dispatch_jump rest
  | _ => false
  end.

Definition record_eq_dec : forall a b : list line, {a = b} + {a <> b} :=
  list_eq_dec line_eq_dec.

(** The literal each record pushes as its vector number: the index, but 0
    in the record of vector 8. *)
Definition vector_literal (N : nat) : nat := if Nat.eqb N 8 then 0 else N.

(** ** The whole effect of a statement on the disk *)

(** [writes_only path c t]: on a disk that has the file, running [c] stores
    the old bytes followed by [t] under [path] and changes nothing else. *)
Definition writes_only (path : PyFile.file) (c : PyFile.IO unit) (t : string) : Prop :=
  forall (d : PyFile.disk) (s : string),
    d path = Some s ->
    forall p, PyFile.exec c d p = PyFile.store d path (s ++ t) p.

(** ** The uniform template, line by line *)

(** Every character of [s] passes [P]. *)
Fixpoint all_chars (P : ascii -> bool) (s : string) : bool :=
  match s with
  | EmptyString => true
  | String c rest => P c && all_chars P rest
  end.

Definition is_digit (c : ascii) : bool :=
  Nat.leb 48 (nat_of_ascii c) && Nat.leb (nat_of_ascii c) 57.

Definition is_not (x : ascii) (c : ascii) : bool := negb (Ascii.eqb c x).

(** Lines put back into text: each followed by a line feed. *)
Fixpoint unlines (ls : list string) : string :=
  match ls with
  | [] => EmptyString
  | l :: rest => (l ++ LF ++ unlines rest)%string
  end.

(** The lines the last branch of the stub loop writes for index [i]: the
    blank line, the label, [cli], the dummy push unless [i] is in [eisr],
    the push of [i], and the jump. *)
Definition uniform_lines (i : nat) : list string :=
  [EmptyString; ("isr" ++ str i ++ ":")%string; "    cli"%string]
  ++ (if negb (in_eisr i) then ["    push byte 0"%string] else [])
  ++ [("    push byte " ++ str i)%string; "    jmp isr_common_stub"%string].

(** The same lines, as the assembler reads them. *)
Definition uniform_record (i : nat) : list line :=
  [Label (handler_name i); Cli]
  ++ (if in_eisr i then [] else [PushByte 0])
  ++ [PushByte i; Jmp common_stub].

(** ** The script over an interface of file operations *)

(** What the script asks of its runtime: sequencing, and [open] in mode
    ["w"], [write] and [close] on a file object. *)
Class FileOps (M : Type -> Type) (F : Type) : Type := {
  fret : forall {A : Type}, A -> M A;
  fbind : forall {A B : Type}, M A -> (A -> M B) -> M B;
  fopen_w : string -> M F;
  fwrite : F -> string -> M unit;
  fclose : F -> M unit
}.

Declare Scope script_scope.
Delimit Scope script_scope with script.
Notation "x <- c ;; k" := (fbind c (fun x => k))
  (at level 61, c at next level, right associativity) : script_scope.
Notation "c ;; k" := (fbind c (fun _ => k))
  (at level 61, right associativity) : script_scope.

Section Script_over_ops.
Context {M : Type -> Type} {F : Type} {ops : FileOps M F}.
Local Open Scope script_scope.

(** The list the script binds to [eisr]. *)
Variable es : list nat.

Fixpoint script_for {A : Type} (xs : list A) (body : A -> M unit) : M unit :=
  match xs with
  | [] => fret tt
  | x :: rest => body x ;; script_for rest body
  end.

Definition script_global_tag (of_ : F) (i : nat) : M unit :=
  fwrite of_ ("global isr" ++ str i ++ LF).

Definition script_isr_body (of_ : F) (i : nat) : M unit :=
  if Nat.eqb i 0 then
    fwrite of_ (LF ++ "; Divide by 0" ++ LF) ;;
    fwrite of_ ("    cli ; Disable interrupts" ++ LF) ;;
    fwrite of_ ("    push byte 0 ; push a dummy error code" ++ LF) ;;
    fwrite of_ ("    push byte 0 ; push the isr code" ++ LF) ;;
    fwrite of_ ("    jmp_isr_common_stub" ++ LF)
  else if Nat.eqb i 8 then
    fwrite of_ (LF ++ "; Double Fault Exception" ++ LF) ;;
    fwrite of_ ("    cli ; Disable interrupts" ++ LF) ;;
    fwrite of_
      ("    ; We don't push a dummy error code since this interrupt comes with one"
         ++ LF) ;;
    fwrite of_ ("    push byte 0 ; push the isr code" ++ LF) ;;
    fwrite of_ ("    jmp_isr_common_stub" ++ LF)
  else
    fwrite of_ LF ;;
    fwrite of_ ("isr" ++ str i ++ ":" ++ LF) ;;
    fwrite of_ ("    cli" ++ LF) ;;
    (if negb (existsb (Nat.eqb i) es)
     then fwrite of_ ("    push byte 0" ++ LF) else fret tt) ;;
    fwrite of_ ("    push byte " ++ str i ++ LF) ;;
    fwrite of_ ("    jmp isr_common_stub" ++ LF).

Definition script_main : M unit :=
  of_ <- fopen_w "isr.asm" ;;
  fwrite of_ ("; A bunch of Interrupt Service Routines (ISRs)" ++ LF) ;;
  fwrite of_ ("; For info on each ISR see isr.md in Documentation" ++ LF) ;;
  script_for (range 32) (script_global_tag of_) ;;
  fwrite of_ (LF ++ "; ISR definitions" ++ LF) ;;
  script_for (range 32) (script_isr_body of_) ;;
  fclose of_.

End Script_over_ops.

(** The disk of [PyFile] as such a runtime. *)
#[export] Instance disk_ops : FileOps PyFile.IO PyFile.file := {
  fret := @PyFile.ret;
  fbind := @PyFile.bind;
  fopen_w := PyFile.open_w;
  fwrite := PyFile.write;
  fclose := PyFile.close
}.

(** ** File objects that can be closed *)

Module PyStrict.

(** Python's [ValueError: I/O operation on closed file]. *)
Inductive error : Type :=
| ClosedFile (f : string).

(** The disk, and the paths that have an open file object. *)
Record world : Type := { files : PyFile.disk; opened : list string }.

(** A statement ends normally or raises; either way the world stays as the
    statement left it. *)
Definition IO (A : Type) : Type := world -> (error + A) * world.

Definition ret {A : Type} (a : A) : IO A := fun w => (inr a, w).

Definition bind {A B : Type} (c : IO A) (k : A -> IO B) : IO B :=
  fun w => match c w with
           | (inr a, w') => k a w'
           | (inl e, w') => (inl e, w')
           end.

Definition is_open (f : string) (w : world) : bool :=
  existsb (String.eqb f) (opened w).

Definition open_w (path : string) : IO string :=
  fun w => (inr path,
            {| files := PyFile.store (files w) path EmptyString;
               opened := path :: opened w |}).

Definition write (f : string) (s : string) : IO unit :=
  fun w =>
    if is_open f w
    then (inr tt,
          {| files := PyFile.store (files w) f (PyFile.contents (files w) f ++ s);
             opened := opened w |})
    else (inl (ClosedFile f), w).

Definition close (f : string) : IO unit :=
  fun w => (inr tt,
            {| files := files w;
               opened := filter (fun g => negb (String.eqb g f)) (opened w) |}).

End PyStrict.

#[export] Instance strict_ops : FileOps PyStrict.IO string := {
  fret := @PyStrict.ret;
  fbind := @PyStrict.bind;
  fopen_w := PyStrict.open_w;
  fwrite := PyStrict.write;
  fclose := PyStrict.close
}.

(** A strict statement that, with [f] open, ends normally, keeps the open
    files and acts on the disk as the disk statement [cd]. *)
Definition simulates (f : string) (cs : PyStrict.IO unit) (cd : PyFile.IO unit) : Prop :=
  forall w : PyStrict.world,
    PyStrict.is_open f w = true ->
    cs w = (inr tt, {| PyStrict.files := PyFile.exec cd (PyStrict.files w);
                       PyStrict.opened := PyStrict.opened w |}).

(** The same, for a statement that leaves [after (opened w)] open. *)
Definition simulates_closing (f : string) (after : list string -> list string)
           (cs : PyStrict.IO unit) (cd : PyFile.IO unit) : Prop :=
  forall w : PyStrict.world,
    PyStrict.is_open f w = true ->
    cs w = (inr tt, {| PyStrict.files := PyFile.exec cd (PyStrict.files w);
                       PyStrict.opened := after (PyStrict.opened w) |}).

(** The open paths once the file objects on [f] are closed. *)
Definition without (f : string) (paths : list string) : list string :=
  filter (fun g => negb (String.eqb g f)) paths.

(** The lines that are executed: not blank, comment, declaration or label. *)
Definition executable (l : line) : bool :=
  match l with
  | Blank | Comment _ | Global _ | Label _ => false
  | Cli | PushByte _ | Jmp _ | Other _ => true
  end.

Definition instructions (r : list line) : list line := filter executable r.

(** * Properties *)

(** ** The file layer: every statement of the script appends *)

Section Appends.
Import PyFile.

Variable path : file.

Lemma append_assoc (a b c : string) : ((a ++ b) ++ c = a ++ (b ++ c))%string.
Proof.
  induction a as [|ch a IH]; simpl; [reflexivity | now rewrite IH].
Qed.

Lemma append_empty_r (a : string) : (a ++ EmptyString)%string = a.
Proof.
  induction a as [|ch a IH]; simpl; [reflexivity | now rewrite IH].
Qed.

Lemma contents_store (d : disk) (data : string) :
  contents (store d path data) path = data.
Proof.
  unfold contents, store. now rewrite String.eqb_refl.
Qed.

Lemma appends_write (s : string) : appends path (write path s) s.
Proof.
  intros d. unfold exec, write. simpl. apply contents_store.
Qed.

Lemma appends_ret : appends path (ret tt) EmptyString.
Proof.
  intros d. unfold exec, ret. simpl. now rewrite append_empty_r.
Qed.

Lemma appends_seq (c1 c2 : IO unit) (t1 t2 : string) :
  appends path c1 t1 -> appends path c2 t2 ->
  appends path (bind c1 (fun _ => c2)) (t1 ++ t2)%string.
Proof.
  intros H1 H2 d. unfold exec, bind.
  specialize (H1 d). unfold exec in H1.
  destruct (c1 d) as [u d1]. simpl in H1.
  specialize (H2 d1). unfold exec in H2.
  rewrite H2, H1. apply append_assoc.
Qed.

Lemma appends_for_each {A : Type} (body : A -> IO unit) (text : A -> string)
      (xs : list A) :
  (forall x, appends path (body x) (text x)) ->
  appends path (for_each xs body) (String.concat EmptyString (map text xs)).
Proof.
  intros Hbody. induction xs as [|x xs IH].
  - apply appends_ret.
  - simpl for_each.
    replace (String.concat EmptyString (map text (x :: xs)))
      with (text x ++ String.concat EmptyString (map text xs))%string.
    + apply appends_seq; [apply Hbody | exact IH].
    + destruct xs; simpl; [now rewrite append_empty_r | reflexivity].
Qed.

End Appends.

Section Script.
Import PyFile.

Let path : file := "isr.asm".

(** The text a statement appends is what it leaves in a fresh file. *)
Lemma appends_text (c : IO unit) (t : string) :
  appends path c t ->
  t = contents (exec c (store empty_disk path EmptyString)) path.
Proof.
  intros H. rewrite H, contents_store. reflexivity.
Qed.

Lemma global_tag_appends (i : nat) :
  appends path (global_tag path i) ("global isr" ++ str i ++ LF)%string.
Proof.
  apply appends_write.
Qed.

(** One iteration of the stub loop appends [stub_text i], whichever of its
    three branches runs. *)
Lemma isr_body_appends (i : nat) : appends path (isr_body path i) (stub_text i).
Proof.
  assert (exists t, appends path (isr_body path i) t) as [t Ht].
  { unfold isr_body.
    destruct (Nat.eqb i 0); [| destruct (Nat.eqb i 8)];
      [ | | destruct (negb (in_eisr i)) ];
      eexists;
      repeat first [ apply appends_seq | apply appends_write | apply appends_ret ]. }
  unfold stub_text. fold path. rewrite <- (appends_text _ _ Ht). exact Ht.
Qed.

(** Opening in mode ["w"] forgets what the file held: what is appended
    afterwards is all there is. *)
Lemma open_w_then (k : file -> IO unit) (t : string) (d : disk) :
  appends path (k path) t ->
  contents (exec (bind (open_w path) k) d) path = t.
Proof.
  intros H. unfold exec, bind, open_w.
  change (contents (exec (k path) (store d path EmptyString)) path = t).
  rewrite H, contents_store. reflexivity.
Qed.

(** The run leaves the same text on every disk. *)
Lemma main_appends :
  exists t, forall d : disk, generate d = t.
Proof.
  eexists. intros d. unfold generate, main. fold path.
  apply open_w_then.
  repeat first
    [ apply appends_seq
    | apply appends_write
    | apply (appends_for_each path _ _ _ global_tag_appends)
    | apply (appends_for_each path _ _ _ isr_body_appends)
    | apply appends_ret ].
Qed.

(** Whatever the disk holds before the run, [isr.asm] holds the Output
    Document after it. *)
Lemma generate_output (d : disk) : generate d = output_document.
Proof.
  destruct main_appends as [t Ht].
  unfold output_document. now rewrite (Ht d), (Ht empty_disk).
Qed.

End Script.

(** The document is the header, the 32 declarations, the section comment
    and the 32 stub texts, in this order. *)
Lemma output_document_layout :
  output_document
  = (("; A bunch of Interrupt Service Routines (ISRs)" ++ LF)
     ++ ("; For info on each ISR see isr.md in Documentation" ++ LF)
     ++ String.concat EmptyString
          (map (fun i => "global isr" ++ str i ++ LF) (range 32))
     ++ (LF ++ "; ISR definitions" ++ LF)
     ++ String.concat EmptyString (map stub_text (range 32)))%string.
Proof.
  vm_compute. reflexivity.
Qed.

(** ** The document, record by record *)

(** The stub block splits at its blank lines into 32 records, the [k]-th
    being what iteration [k] of the stub loop wrote. *)
Lemma records_emitted : records = map emitted_record (range 32).
Proof.
  vm_compute. reflexivity.
Qed.

Lemma records_length : length records = 32.
Proof.
  rewrite records_emitted. unfold range. now rewrite length_map, length_seq.
Qed.

Lemma stub_record_emitted (N : nat) : N <= 31 -> stub_record N = emitted_record N.
Proof.
  intros H. unfold stub_record. rewrite records_emitted.
  rewrite (nth_indep _ [] (emitted_record 0)).
  - rewrite (map_nth emitted_record). unfold range. now rewrite seq_nth by lia.
  - unfold range. rewrite length_map, length_seq. lia.
Qed.

(** A check that holds on each of [range n] holds below [n]. *)
Lemma range_forallb (P : nat -> bool) (n : nat) :
  forallb P (range n) = true -> forall k, k < n -> P k = true.
Proof.
  intros H k Hk. rewrite forallb_forall in H. apply H.
  unfold range. apply in_seq. lia.
Qed.

Lemma in_eisr_In (i : nat) : in_eisr i = true <-> In i eisr.
Proof.
  unfold in_eisr. rewrite existsb_exists. split.
  - intros [x [Hx Heq]]. apply Nat.eqb_eq in Heq. now subst.
  - intros H. exists i. split; [exact H | apply Nat.eqb_refl].
Qed.

Lemma not_in_eisr_In (i : nat) : in_eisr i = false <-> ~ In i eisr.
Proof.
  rewrite <- in_eisr_In. destruct (in_eisr i); split; congruence.
Qed.

Lemma list_nat_eqb_eq (a b : list nat) : list_nat_eqb a b = true -> a = b.
Proof.
  unfold list_nat_eqb. destruct (list_eq_dec Nat.eq_dec a b); congruence.
Qed.

(** The dummy pushes of every record, tabulated against the EISR set. *)
Lemma dummy_pushes_table (N : nat) :
  N <= 31 ->
  dummy_pushes (stub_record N) = if in_eisr N then [] else [0].
Proof.
  intros H. apply list_nat_eqb_eq.
  apply (range_forallb
           (fun k => list_nat_eqb (dummy_pushes (stub_record k))
                                  (if in_eisr k then [] else [0])) 32);
    [vm_compute; reflexivity | lia].
Qed.

(** C1 (EISR exactness).  For every vector index [N] in [0,31], the stub of
    [N] has a dummy error-code push, a push of 0 ahead of the vector-number
    push, exactly when [N] is outside the EISR set: no dummy push for [N] in
    the set, and exactly one, of value 0, for every other [N]. *)
Theorem eisr_exactness (N : nat) :
  N <= 31 ->
  (dummy_pushes (stub_record N) <> [] <-> ~ In N eisr)
  /\ (In N eisr -> dummy_pushes (stub_record N) = [])
  /\ (~ In N eisr -> dummy_pushes (stub_record N) = [0]).
Proof.
  intros H. rewrite (dummy_pushes_table N H).
  destruct (in_eisr N) eqn:E.
  - apply in_eisr_In in E. repeat split; intros; congruence || tauto.
  - apply not_in_eisr_In in E. repeat split; intros; try tauto; discriminate.
Qed.

Lemma eisr_exactness_witness :
  dummy_pushes (stub_record 13) = [] /\ dummy_pushes (stub_record 7) = [0].
Proof.
  split.
  - apply (eisr_exactness 13); [lia | simpl; tauto].
  - apply (eisr_exactness 7); [lia | simpl; lia].
Defined.

(** ** Stack shape *)

(** Vector 13 is in the EISR set: its stub pushes once. *)
Lemma two_pushes_fails_at_13 :
  13 <= 31 /\ pushes_before_jump (stub_record 13) = Some [13]
  /\ ~ two_pushes_before_jump 13.
Proof.
  split; [lia |]. split; [vm_compute; reflexivity |].
  intros [e [v H]].
  assert (E : pushes_before_jump (stub_record 13) = Some [13])
    by (vm_compute; reflexivity).
  rewrite E in H. discriminate H.
Qed.

Lemma option_list_nat_eqb_eq (a b : option (list nat)) :
  option_list_nat_eqb a b = true -> a = b.
Proof.
  destruct a, b; simpl; intros H; try discriminate; try reflexivity.
  f_equal. now apply list_nat_eqb_eq.
Qed.

(** The stubs written by the uniform branch: their pushes are the dummy
    pushes followed by the index, and all of them come before the jump. *)
Lemma uniform_pushes (N : nat) :
  N <= 31 -> N <> 0 -> N <> 8 ->
  pushes_before_jump (stub_record N) = Some (dummy_pushes (stub_record N) ++ [N]).
Proof.
  intros H H0 H8. apply option_list_nat_eqb_eq.
  assert (T : (Nat.eqb N 0 || Nat.eqb N 8
               || option_list_nat_eqb
                    (pushes_before_jump (stub_record N))
                    (Some (dummy_pushes (stub_record N) ++ [N])))%bool = true).
  { apply (range_forallb
             (fun k => (Nat.eqb k 0 || Nat.eqb k 8
                        || option_list_nat_eqb
                             (pushes_before_jump (stub_record k))
                             (Some (dummy_pushes (stub_record k) ++ [k])))%bool) 32);
      [vm_compute; reflexivity | lia]. }
  apply Nat.eqb_neq in H0, H8. rewrite H0, H8 in T. exact T.
Qed.

Lemma pushes_count (N : nat) :
  N <= 31 -> length (pushes (stub_record N)) = if in_eisr N then 1 else 2.
Proof.
  intros H. apply Nat.eqb_eq.
  apply (range_forallb
           (fun k => Nat.eqb (length (pushes (stub_record k)))
                             (if in_eisr k then 1 else 2)) 32);
    [vm_compute; reflexivity | lia].
Qed.

(** C2 (stack shape), amended.  For every [N] in [0,31] the stub of [N] has
    exactly two explicit pushes, a dummy error code 0 and then the vector
    number, when [N] is outside the EISR set, and exactly one, the vector
    number alone, when [N] is in it; for [N] other than 0 and 8 these are
    the pushes traced before [jmp isr_common_stub], the last one pushing
    [N]. *)
Theorem stack_shape_by_eisr (N : nat) :
  N <= 31 ->
  (In N eisr ->
     length (pushes (stub_record N)) = 1 /\ dummy_pushes (stub_record N) = [])
  /\ (~ In N eisr ->
        length (pushes (stub_record N)) = 2 /\ dummy_pushes (stub_record N) = [0])
  /\ (N <> 0 -> N <> 8 ->
        pushes_before_jump (stub_record N)
        = Some (dummy_pushes (stub_record N) ++ [N])).
Proof.
  intros H.
  pose proof (pushes_count N H) as Hc.
  pose proof (dummy_pushes_table N H) as Hd.
  split; [| split].
  - intros Hin. apply in_eisr_In in Hin. rewrite Hin in Hc, Hd. now split.
  - intros Hout. apply not_in_eisr_In in Hout. rewrite Hout in Hc, Hd. now split.
  - intros H0 H8. now apply uniform_pushes.
Qed.

Lemma stack_shape_by_eisr_witness :
  pushes_before_jump (stub_record 13) = Some (dummy_pushes (stub_record 13) ++ [13])
  /\ length (pushes (stub_record 7)) = 2.
Proof.
  split.
  - apply (stack_shape_by_eisr 13); lia.
  - apply (stack_shape_by_eisr 7); [lia | simpl; lia].
Defined.

(** ** The special-cased stubs 0 and 8 *)

(** The stubs of the uniform branch have the shape, and so end with the
    dispatch jump. *)
Lemma uniform_stub_shape (N : nat) :
  N <= 31 -> N <> 0 -> N <> 8 -> has_stub_shape N (stub_record N) = true.
Proof.
  intros H H0 H8.
  assert (T : (Nat.eqb N 0 || Nat.eqb N 8
               || has_stub_shape N (stub_record N))%bool = true).
  { apply (range_forallb
             (fun k => (Nat.eqb k 0 || Nat.eqb k 8
                        || has_stub_shape k (stub_record k))%bool) 32);
      [vm_compute; reflexivity | lia]. }
  apply Nat.eqb_neq in H0, H8. rewrite H0, H8 in T. exact T.
Qed.

Lemma has_stub_shape_ends (N : nat) (r : list line) :
  has_stub_shape N r = true -> ends_with_dispatch_jump r = true.
Proof.
  destruct r as [|l rest]; [discriminate |].
  destruct l; try discriminate. simpl.
  intros H. apply andb_prop in H as [_ H].
  unfold ends_with_dispatch_jump in *. simpl.
  destruct (rev rest) as [|x xs]; [discriminate | exact H].
Qed.

Lemma uniform_stub_ends_with_jump (N : nat) :
  N <= 31 -> N <> 0 -> N <> 8 -> ends_with_dispatch_jump (stub_record N) = true.
Proof.
  intros H H0 H8. apply (has_stub_shape_ends N). now apply uniform_stub_shape.
Qed.

(** The document defines no symbol named [isr_common_stub]. *)
Lemma common_stub_undefined : ~ In common_stub (labels document_lines).
Proof.
  assert (E : existsb (String.eqb common_stub) (labels document_lines) = false)
    by (vm_compute; reflexivity).
  intros Hin.
  assert (T : existsb (String.eqb common_stub) (labels document_lines) = true).
  { apply existsb_exists. exists common_stub. split; [exact Hin | apply String.eqb_refl]. }
  congruence.
Qed.

(** C3 (dispatch jump), at the stubs of vectors 0 and 8.  Their last line
    is the single word [jmp_isr_common_stub], which is no jump: neither
    record ends with [jmp isr_common_stub], and stub 0 reads as shown. *)
Theorem special_stubs_lack_dispatch_jump :
  stub_record 0
  = [Comment " Divide by 0"; Cli; PushByte 0; PushByte 0;
     Other ["jmp_isr_common_stub"%string]]
  /\ ends_with_dispatch_jump (stub_record 0) = false
  /\ ends_with_dispatch_jump (stub_record 8) = false
  /\ pushes_before_jump (stub_record 0) = None
  /\ split_lines (stub_text 0)
     = [""; "; Divide by 0"; "    cli ; Disable interrupts";
        "    push byte 0 ; push a dummy error code";
        "    push byte 0 ; push the isr code";
        "    jmp_isr_common_stub"]%string.
Proof.
  repeat split; vm_compute; reflexivity.
Qed.

(** C4 (stub shape), at the stubs of vectors 0 and 8.  Neither record has a
    label, although the declaration block exports [isr0] and [isr8]; so
    neither has the shape label, normalization, jump. *)
Theorem special_stubs_lack_label :
  labels (stub_record 0) = []
  /\ labels (stub_record 8) = []
  /\ has_stub_shape 0 (stub_record 0) = false
  /\ has_stub_shape 8 (stub_record 8) = false
  /\ count_occ string_dec (globals document_lines) (handler_name 0) = 1
  /\ count_occ string_dec (globals document_lines) (handler_name 8) = 1.
Proof.
  repeat split; vm_compute; reflexivity.
Qed.

(** C6 (vector 8), as the code has it.  The stub of vector 8 is a comment,
    a cli, a second comment, one push of the literal 0 and the word
    [jmp_isr_common_stub]: there is no dummy push, the value pushed is 0 and
    not 8, and no jump to the dispatch routine follows. *)
Theorem double_fault_stub :
  stub_record 8
  = [Comment " Double Fault Exception"; Cli;
     Comment " We don't push a dummy error code since this interrupt comes with one";
     PushByte 0; Other ["jmp_isr_common_stub"%string]]
  /\ pushes (stub_record 8) = [0]
  /\ dummy_pushes (stub_record 8) = []
  /\ vector_push (stub_record 8) = Some 0
  /\ pushes_before_jump (stub_record 8) = None
  /\ existsb is_dispatch_jump (stub_record 8) = false.
Proof.
  repeat split; vm_compute; reflexivity.
Qed.

(** ** Declarations and records, one per vector *)

Lemma completeness_table (N : nat) :
  N <= 31 ->
  (Nat.eqb (count_occ string_dec (globals document_lines) (handler_name N)) 1
   && Nat.eqb (count_occ record_eq_dec records (stub_record N)) 1
   && match vector_push (stub_record N) with
      | Some v => Nat.eqb v (vector_literal N)
      | None => false
      end)%bool = true.
Proof.
  intros H.
  apply (range_forallb
           (fun k =>
              (Nat.eqb (count_occ string_dec (globals document_lines) (handler_name k)) 1
               && Nat.eqb (count_occ record_eq_dec records (stub_record k)) 1
               && match vector_push (stub_record k) with
                  | Some v => Nat.eqb v (vector_literal k)
                  | None => false
                  end)%bool) 32);
    [vm_compute; reflexivity | lia].
Qed.

(** C5 (completeness).  For every [N] in [0,31] the document has exactly
    one [global isr<N>] declaration and exactly one Stub Record for vector
    [N]: the [N]-th record, which is what iteration [N] of the stub loop
    wrote, occurs once among the records, and the vector number it pushes is
    the literal [N], or the special-case literal 0 when [N] is 0 or 8. *)
Theorem completeness (N : nat) :
  N <= 31 ->
  count_occ string_dec (globals document_lines) (handler_name N) = 1
  /\ stub_record N = emitted_record N
  /\ count_occ record_eq_dec records (stub_record N) = 1
  /\ (vector_push (stub_record N) = Some N
      \/ ((N = 0 \/ N = 8) /\ vector_push (stub_record N) = Some 0)).
Proof.
  intros H. pose proof (completeness_table N H) as T.
  apply andb_prop in T as [T Tv]. apply andb_prop in T as [Tg Tr].
  apply Nat.eqb_eq in Tg, Tr.
  split; [exact Tg |]. split; [now apply stub_record_emitted |].
  split; [exact Tr |].
  destruct (vector_push (stub_record N)) as [v|]; [| discriminate].
  apply Nat.eqb_eq in Tv. subst v. unfold vector_literal.
  destruct (Nat.eqb N 8) eqn:E8.
  - apply Nat.eqb_eq in E8. right. split; [now right | reflexivity].
  - now left.
Qed.

Lemma completeness_witness :
  count_occ string_dec (globals document_lines) (handler_name 8) = 1
  /\ stub_record 8 = emitted_record 8
  /\ count_occ record_eq_dec records (stub_record 8) = 1
  /\ (vector_push (stub_record 8) = Some 8
      \/ ((8 = 0 \/ 8 = 8) /\ vector_push (stub_record 8) = Some 0)).
Proof.
  apply (completeness 8). lia.
Defined.

(** C7 (scenario C).  Vector 13 is in the EISR set; its stub is the label
    [isr13:], a cli, the single push of the literal 13 and the jump to the
    dispatch routine, with no dummy push. *)
Theorem scenario_C_isr13 :
  In 13 eisr
  /\ stub_text 13
     = (LF ++ "isr13:" ++ LF ++ "    cli" ++ LF ++ "    push byte 13" ++ LF
           ++ "    jmp isr_common_stub" ++ LF)%string
  /\ stub_record 13
     = [Label "isr13"; Cli; PushByte 13; Jmp "isr_common_stub"]
  /\ pushes (stub_record 13) = [13]
  /\ dummy_pushes (stub_record 13) = [].
Proof.
  split; [simpl; tauto |].
  repeat split; vm_compute; reflexivity.
Qed.

(** ** Order *)

Lemma seq_strictly_ascending (start len : nat) : StronglySorted lt (seq start len).
Proof.
  revert start. induction len as [|len IH]; intros start; simpl.
  - constructor.
  - constructor; [apply IH |].
    apply Forall_forall. intros x Hx. apply in_seq in Hx. lia.
Qed.

(** C8 (ordering).  The declaration block lists the indices 0 to 31 in
    strictly ascending order, and so does the stub block: its records are
    those of the iterations 0 to 31 in this order, and the labels it defines
    carry strictly ascending indices. *)
Theorem ordering :
  declared_indices = map Some (range 32)
  /\ records = map emitted_record (range 32)
  /\ StronglySorted lt (range 32)
  /\ labelled_indices = map Some (seq 1 7 ++ seq 9 23)
  /\ StronglySorted lt (seq 1 7 ++ seq 9 23).
Proof.
  split; [vm_compute; reflexivity |].
  split; [exact records_emitted |].
  split; [apply seq_strictly_ascending |].
  split; [vm_compute; reflexivity |].
  repeat (constructor; [| repeat (constructor; [lia |]); constructor ]).
  constructor.
Qed.

(** ** Determinism *)

(** C9 (determinism).  The script reads nothing: two runs, from any two
    disks, leave byte-for-byte the same text in [isr.asm], the Output
    Document. *)
Theorem determinism (d1 d2 : PyFile.disk) :
  generate d1 = generate d2 /\ generate d1 = output_document.
Proof.
  split; [| apply generate_output].
  now rewrite (generate_output d1), (generate_output d2).
Qed.

(** ** Declared and defined handler names *)

(** [str] is read back by the decimal parser, so it is injective. *)
Lemma parse_nat_str (n : nat) : parse_nat (str n) = Some n.
Proof.
  unfold parse_nat, str, NilZero.uint_of_string.
  destruct (NilEmpty.string_of_uint (Nat.to_uint n)) eqn:E.
  - apply (f_equal NilEmpty.uint_of_string) in E.
    rewrite NilEmpty.usu in E. simpl in E. injection E as E.
    pose proof (Unsigned.of_to n) as Hn. rewrite E in Hn. simpl in Hn.
    subst n. discriminate E.
  - rewrite <- E, NilEmpty.usu. simpl. now rewrite Unsigned.of_to.
Qed.

Lemma handler_name_inj (a b : nat) : handler_name a = handler_name b -> a = b.
Proof.
  unfold handler_name. simpl. intros H. injection H as H.
  apply (f_equal parse_nat) in H. rewrite !parse_nat_str in H. congruence.
Qed.

Lemma isr_index_handler_name (n : nat) : isr_index (handler_name n) = Some n.
Proof.
  unfold handler_name. simpl. apply parse_nat_str.
Qed.

(** The labels of the document, in order. *)
Lemma document_labels :
  labels document_lines = map handler_name (seq 1 7 ++ seq 9 23).
Proof.
  vm_compute. reflexivity.
Qed.

(** C10 (declared but undefined handlers).  [global isr0] and [global isr8]
    are emitted, yet no line of the document defines [isr0:] or [isr8:]:
    the label [isr<N>:] is defined exactly for [N] from 1 to 31 other than
    8. *)
Theorem labels_exactly_uniform :
  In (handler_name 0) (globals document_lines)
  /\ In (handler_name 8) (globals document_lines)
  /\ ~ In (handler_name 0) (labels document_lines)
  /\ ~ In (handler_name 8) (labels document_lines)
  /\ (forall N : nat,
        In (handler_name N) (labels document_lines)
        <-> (1 <= N <= 31 /\ N <> 8)).
Proof.
  assert (L : forall N : nat,
             In (handler_name N) (labels document_lines)
             <-> (1 <= N <= 31 /\ N <> 8)).
  { intros N. rewrite document_labels, in_map_iff. split.
    - intros [k [Hk Hin]]. apply handler_name_inj in Hk. subst k.
      apply in_app_iff in Hin. rewrite !in_seq in Hin. lia.
    - intros HN. exists N. split; [reflexivity |].
      apply in_app_iff. rewrite !in_seq. lia. }
  split; [vm_compute; tauto |]. split; [vm_compute; tauto |].
  split; [rewrite L; lia |]. split; [rewrite L; lia | exact L].
Qed.

(** * Further properties of the script *)

(** ** What a run does to the disk *)

Section Frame.
Import PyFile.

Variable path : file.

Lemma store_same (d : disk) (data : string) : store d path data path = Some data.
Proof.
  unfold store. now rewrite String.eqb_refl.
Qed.

Lemma store_store (d : disk) (a b : string) (p : string) :
  store (store d path a) path b p = store d path b p.
Proof.
  unfold store. destruct (String.eqb p path); reflexivity.
Qed.

Lemma writes_only_write (x : string) : writes_only path (write path x) x.
Proof.
  intros d s Hs p. unfold exec, write, contents. simpl. now rewrite Hs.
Qed.

Lemma writes_only_ret : writes_only path (ret tt) EmptyString.
Proof.
  intros d s Hs p. unfold exec, ret, store. simpl.
  rewrite append_empty_r.
  destruct (String.eqb p path) eqn:E; [| reflexivity].
  apply String.eqb_eq in E. now subst p.
Qed.

Lemma writes_only_seq (c1 c2 : IO unit) (t1 t2 : string) :
  writes_only path c1 t1 -> writes_only path c2 t2 ->
  writes_only path (bind c1 (fun _ => c2)) (t1 ++ t2)%string.
Proof.
  intros H1 H2 d s Hs p. unfold exec, bind.
  pose proof (H1 d s Hs) as E1. unfold exec in E1.
  destruct (c1 d) as [u d1]. simpl in E1.
  assert (Hd1 : d1 path = Some (s ++ t1)%string)
    by (rewrite E1; apply store_same).
  pose proof (H2 d1 _ Hd1 p) as E2. unfold exec in E2.
  rewrite E2, append_assoc. unfold store.
  destruct (String.eqb p path) eqn:E; [reflexivity |].
  rewrite E1. unfold store. now rewrite E.
Qed.

Lemma writes_only_for_each {A : Type} (body : A -> IO unit) (text : A -> string)
      (xs : list A) :
  (forall x, writes_only path (body x) (text x)) ->
  writes_only path (for_each xs body) (String.concat EmptyString (map text xs)).
Proof.
  intros Hbody. induction xs as [|x xs IH].
  - apply writes_only_ret.
  - simpl for_each.
    replace (String.concat EmptyString (map text (x :: xs)))
      with (text x ++ String.concat EmptyString (map text xs))%string.
    + apply writes_only_seq; [apply Hbody | exact IH].
    + destruct xs; simpl; [now rewrite append_empty_r | reflexivity].
Qed.

(** After [open(path, "w")], statements that only write to the file leave
    exactly their text in it. *)
Lemma open_w_then_writes (k : file -> IO unit) (t : string) (d : disk) (p : string) :
  writes_only path (k path) t ->
  exec (bind (open_w path) k) d p = store d path t p.
Proof.
  intros H. unfold exec, bind, open_w.
  change (exec (k path) (store d path EmptyString) p = store d path t p).
  rewrite (H _ EmptyString (store_same d EmptyString)).
  simpl. apply store_store.
Qed.

End Frame.

Section RunEffect.
Import PyFile.

Let path : file := "isr.asm".

Lemma writes_only_text (c : IO unit) (t : string) :
  writes_only path c t ->
  t = contents (exec c (store empty_disk path EmptyString)) path.
Proof.
  intros H. unfold contents.
  rewrite (H _ EmptyString (store_same path empty_disk EmptyString)).
  now rewrite store_same.
Qed.

Lemma global_tag_writes_only (i : nat) :
  writes_only path (global_tag path i) ("global isr" ++ str i ++ LF)%string.
Proof.
  apply writes_only_write.
Qed.

Lemma isr_body_writes_only (i : nat) :
  writes_only path (isr_body path i) (stub_text i).
Proof.
  assert (exists t, writes_only path (isr_body path i) t) as [t Ht].
  { unfold isr_body.
    destruct (Nat.eqb i 0); [| destruct (Nat.eqb i 8)];
      [ | | destruct (negb (in_eisr i)) ];
      eexists;
      repeat first [ apply writes_only_seq | apply writes_only_write
                   | apply writes_only_ret ]. }
  unfold stub_text. fold path. rewrite <- (writes_only_text _ _ Ht). exact Ht.
Qed.

(** The disk after a run: [isr.asm] holds the Output Document, every other
    path what it held before. *)
Lemma main_effect (d : disk) (p : string) :
  exec main d p = store d path output_document p.
Proof.
  assert (exists t, forall d p, exec main d p = store d path t p) as [t Ht].
  { eexists. intros d0 p0. unfold main. fold path.
    apply open_w_then_writes.
    repeat first
      [ apply writes_only_seq
      | apply writes_only_write
      | apply (writes_only_for_each path _ _ _ global_tag_writes_only)
      | apply (writes_only_for_each path _ _ _ isr_body_writes_only)
      | apply writes_only_ret ]. }
  assert (E : output_document = t).
  { unfold output_document, generate, contents. fold path.
    now rewrite Ht, store_same. }
  rewrite E. apply Ht.
Qed.

End RunEffect.



(** X2 (rerun).  Running the script a second time changes nothing: the disk
    after two runs is, path by path, the disk after one. *)
Theorem rerun_changes_nothing (d : PyFile.disk) (p : string) :
  PyFile.exec main (PyFile.exec main d) p = PyFile.exec main d p.
Proof.
  rewrite (main_effect (PyFile.exec main d)). unfold PyFile.store at 1.
  destruct (String.eqb p "isr.asm") eqn:E; [| reflexivity].
  rewrite main_effect. unfold PyFile.store. now rewrite E.
Qed.

(** ** The uniform template at any index *)

Lemma all_chars_app (P : ascii -> bool) (a b : string) :
  all_chars P (a ++ b) = all_chars P a && all_chars P b.
Proof.
  induction a as [|c a IH]; simpl; [reflexivity |].
  now rewrite IH, andb_assoc.
Qed.

Lemma all_chars_impl (P Q : ascii -> bool) (s : string) :
  (forall c, P c = true -> Q c = true) ->
  all_chars P s = true -> all_chars Q s = true.
Proof.
  intros HPQ. induction s as [|c s IH]; simpl; [reflexivity |].
  intros H. apply andb_prop in H as [Hc Hs].
  now rewrite (HPQ c Hc), (IH Hs).
Qed.

(** A decimal numeral is made of digits. *)
Lemma uint_digits (d : Decimal.uint) :
  all_chars is_digit (NilEmpty.string_of_uint d) = true.
Proof.
  induction d; simpl; auto.
Qed.

Lemma str_digits (i : nat) : all_chars is_digit (str i) = true.
Proof.
  apply uint_digits.
Qed.

Lemma str_nonempty (i : nat) : str i <> EmptyString.
Proof.
  intros E. pose proof (parse_nat_str i) as H. rewrite E in H. discriminate H.
Qed.

(** No digit is a line feed, a space, a semicolon or a colon. *)
Lemma digit_is_not (x : ascii) (c : ascii) :
  is_digit x = false -> is_digit c = true -> is_not x c = true.
Proof.
  intros Hx Hc. unfold is_not. destruct (Ascii.eqb c x) eqn:E; [| reflexivity].
  apply Ascii.eqb_eq in E. subst c. congruence.
Qed.

Lemma str_avoids (x : ascii) (i : nat) :
  is_digit x = false -> all_chars (is_not x) (str i) = true.
Proof.
  intros Hx. apply (all_chars_impl is_digit); [| apply str_digits].
  intros c. now apply digit_is_not.
Qed.

(** A line without line feed is read back whole. *)
Lemma split_lines_line (l rest : string) :
  all_chars (is_not (ascii_of_nat 10)) l = true ->
  split_lines (l ++ LF ++ rest) = l :: split_lines rest.
Proof.
  induction l as [|c l IH]; intros H.
  - reflexivity.
  - simpl in H. apply andb_prop in H as [Hc Hl].
    unfold is_not in Hc. apply negb_true_iff in Hc.
    specialize (IH Hl).
    change (split_lines (String c (l ++ LF ++ rest)) = String c l :: split_lines rest).
    remember (l ++ LF ++ rest)%string as tail eqn:Et.
    simpl. rewrite Hc, IH. reflexivity.
Qed.

Lemma split_lines_unlines (ls : list string) :
  forallb (all_chars (is_not (ascii_of_nat 10))) ls = true ->
  split_lines (unlines ls) = ls.
Proof.
  induction ls as [|l ls IH]; intros H; [reflexivity |].
  simpl in H. apply andb_prop in H as [Hl Hls].
  change (unlines (l :: ls)) with (l ++ LF ++ unlines ls)%string.
  rewrite (split_lines_line _ _ Hl), (IH Hls). reflexivity.
Qed.

Lemma cut_comment_plain (s : string) :
  all_chars (is_not ";"%char) s = true -> cut_comment s = (s, None).
Proof.
  induction s as [|c s IH]; intros H; [reflexivity |].
  simpl in H. apply andb_prop in H as [Hc Hs].
  unfold is_not in Hc. apply negb_true_iff in Hc.
  simpl. rewrite Hc, (IH Hs). reflexivity.
Qed.

Lemma words_plain (s : string) :
  all_chars (is_not " "%char) s = true -> s <> EmptyString -> words s = [s].
Proof.
  induction s as [|c s IH]; intros H Hne; [contradiction |].
  simpl in H. apply andb_prop in H as [Hc Hs].
  unfold is_not in Hc. apply negb_true_iff in Hc.
  simpl. rewrite Hc. destruct s as [|c' s'].
  - reflexivity.
  - rewrite (IH Hs); [reflexivity | discriminate].
Qed.

Lemma label_name_colon (w : string) : label_name (w ++ ":") = Some w.
Proof.
  induction w as [|c w IH]; [reflexivity |].
  change (label_name (String c (w ++ ":")) = Some (String c w)).
  destruct (w ++ ":")%string as [|c' r] eqn:E.
  - destruct w; discriminate E.
  - simpl. simpl in IH. rewrite IH. reflexivity.
Qed.

Lemma appends_cast (path : PyFile.file) (c : PyFile.IO unit) (t t' : string) :
  t = t' -> PyFile.appends path c t -> PyFile.appends path c t'.
Proof.
  now intros ->.
Qed.

(** Outside 0 and 8, an iteration writes the lines of the template. *)
Lemma uniform_stub_text (i : nat) :
  i <> 0 -> i <> 8 -> stub_text i = unlines (uniform_lines i).
Proof.
  intros H0 H8.
  assert (A : PyFile.appends "isr.asm" (isr_body "isr.asm" i)
                             (unlines (uniform_lines i))).
  { unfold isr_body, uniform_lines.
    apply Nat.eqb_neq in H0, H8. rewrite H0, H8.
    destruct (negb (in_eisr i));
      (eapply appends_cast;
       [ | repeat first [ apply appends_seq | apply appends_write
                        | apply appends_ret ] ]);
      simpl; rewrite ?append_assoc; reflexivity. }
  unfold stub_text. symmetry. apply (appends_text _ _ A).
Qed.

Lemma uniform_lines_no_lf (i : nat) :
  forallb (all_chars (is_not (ascii_of_nat 10))) (uniform_lines i) = true.
Proof.
  assert (D : all_chars (is_not (ascii_of_nat 10)) (str i) = true)
    by (apply str_avoids; reflexivity).
  unfold uniform_lines. destruct (negb (in_eisr i)); simpl;
    rewrite ?all_chars_app, D; reflexivity.
Qed.

Lemma tokens_plain (s : string) :
  all_chars (is_not " "%char) s = true -> s <> EmptyString -> tokens s = [s].
Proof.
  intros H Hne. unfold tokens. rewrite (words_plain s H Hne). simpl.
  destruct s; [contradiction | reflexivity].
Qed.

Lemma classify_label (i : nat) :
  classify ("isr" ++ str i ++ ":") = Label (handler_name i).
Proof.
  assert (C : cut_comment ("isr" ++ str i ++ ":") = (("isr" ++ str i ++ ":")%string, None)).
  { apply cut_comment_plain. simpl.
    rewrite all_chars_app, (str_avoids ";"%char i eq_refl). reflexivity. }
  assert (T : tokens ("isr" ++ str i ++ ":") = [("isr" ++ str i ++ ":")%string]).
  { apply tokens_plain; [| discriminate]. simpl.
    rewrite all_chars_app, (str_avoids " "%char i eq_refl). reflexivity. }
  unfold classify. rewrite C, T.
  assert (L : label_name ("isr" ++ str i ++ ":") = Some (handler_name i)).
  { unfold handler_name. rewrite <- label_name_colon. reflexivity. }
  simpl. simpl in L. rewrite L. reflexivity.
Qed.

Lemma classify_push (i : nat) :
  classify ("    push byte " ++ str i) = PushByte i.
Proof.
  assert (C : cut_comment ("    push byte " ++ str i)
              = (("    push byte " ++ str i)%string, None)).
  { apply cut_comment_plain. simpl. apply (str_avoids ";"%char i eq_refl). }
  assert (T : tokens ("    push byte " ++ str i) = ["push"; "byte"; str i]%string).
  { unfold tokens. simpl.
    rewrite (words_plain (str i) (str_avoids " "%char i eq_refl) (str_nonempty i)).
    simpl. destruct (str i) eqn:E; [now apply str_nonempty in E | reflexivity]. }
  unfold classify. rewrite C, T. simpl. rewrite parse_nat_str. reflexivity.
Qed.

Lemma uniform_lines_read (i : nat) :
  map classify (filter nonempty (uniform_lines i)) = uniform_record i.
Proof.
  assert (F : filter nonempty (uniform_lines i) = tl (uniform_lines i)).
  { unfold uniform_lines. destruct (negb (in_eisr i)); simpl;
      destruct (str i) eqn:E; solve [now apply str_nonempty in E | reflexivity]. }
  rewrite F. unfold uniform_lines, uniform_record.
  destruct (in_eisr i); cbn [negb app tl map];
    rewrite classify_label, classify_push; reflexivity.
Qed.

Lemma uniform_split_lines (i : nat) :
  i <> 0 -> i <> 8 -> split_lines (stub_text i) = uniform_lines i.
Proof.
  intros H0 H8. rewrite (uniform_stub_text i H0 H8).
  apply split_lines_unlines, uniform_lines_no_lf.
Qed.

Lemma emitted_record_uniform (i : nat) :
  i <> 0 -> i <> 8 -> emitted_record i = uniform_record i.
Proof.
  intros H0 H8. unfold emitted_record.
  rewrite (uniform_split_lines i H0 H8). apply uniform_lines_read.
Qed.

(** X3 (the template at any index).  For every index [i] other than 0 and
    8, also beyond 31, what the stub loop's body writes reads back as the
    label [isr<i>], [cli], a dummy [push byte 0] unless [i] is in [eisr],
    the push of [i] itself, and [jmp isr_common_stub]: the decimal
    rendering of [i] never breaks a line, a word, a label or a literal. *)
Theorem uniform_template (i : nat) :
  i <> 0 -> i <> 8 ->
  split_lines (stub_text i) = uniform_lines i
  /\ emitted_record i = uniform_record i.
Proof.
  intros H0 H8. split.
  - now apply uniform_split_lines.
  - now apply emitted_record_uniform.
Qed.

Lemma uniform_template_witness :
  emitted_record 255
  = [Label "isr255"; Cli; PushByte 0; PushByte 255; Jmp "isr_common_stub"].
Proof.
  apply (uniform_template 255); discriminate.
Defined.

(** ** The script over the two runtimes *)

Lemma script_for_disk {A : Type} (xs : list A) (body : A -> PyFile.IO unit) :
  script_for (ops := disk_ops) xs body = PyFile.for_each xs body.
Proof.
  induction xs as [|x xs IH]; [reflexivity |].
  simpl. rewrite IH. reflexivity.
Qed.

Lemma script_isr_body_disk (of_ : PyFile.file) (i : nat) :
  script_isr_body (ops := disk_ops) eisr of_ i = isr_body of_ i.
Proof.
  reflexivity.
Qed.

(** Loop bodies that agree on the items give the same loop. *)
Lemma script_for_ext {M : Type -> Type} {F : Type} {ops : FileOps M F} {A : Type}
      (xs : list A) (body1 body2 : A -> M unit) :
  (forall x, In x xs -> body1 x = body2 x) ->
  script_for xs body1 = script_for xs body2.
Proof.
  induction xs as [|x xs IH]; intros H; [reflexivity |].
  simpl. rewrite (H x (or_introl eq_refl)).
  rewrite IH; [reflexivity |].
  intros y Hy. apply H. now right.
Qed.

(** The stub loop's body looks into the list only outside 0 and 8. *)
Lemma script_isr_body_agree {M : Type -> Type} {F : Type} {ops : FileOps M F}
      (es1 es2 : list nat) (of_ : F) (i : nat) :
  (i <> 0 -> i <> 8 -> existsb (Nat.eqb i) es1 = existsb (Nat.eqb i) es2) ->
  script_isr_body es1 of_ i = script_isr_body es2 of_ i.
Proof.
  intros H. unfold script_isr_body.
  destruct (Nat.eqb i 0) eqn:E0; [reflexivity |].
  destruct (Nat.eqb i 8) eqn:E8; [reflexivity |].
  apply Nat.eqb_neq in E0, E8. now rewrite (H E0 E8).
Qed.

Lemma script_main_agree (es1 es2 : list nat) (d : PyFile.disk) :
  (forall i, i < 32 -> i <> 0 -> i <> 8 ->
             existsb (Nat.eqb i) es1 = existsb (Nat.eqb i) es2) ->
  script_main (ops := disk_ops) es1 d = script_main (ops := disk_ops) es2 d.
Proof.
  intros H. unfold script_main. cbn [fbind fopen_w disk_ops].
  unfold PyFile.bind at 1. unfold PyFile.bind at 6.
  unfold PyFile.open_w.
  rewrite (script_for_ext (range 32) (script_isr_body es1 "isr.asm")
                          (script_isr_body es2 "isr.asm")); [reflexivity |].
  intros i Hi. apply in_seq in Hi.
  apply script_isr_body_agree. intros H0 H8. apply H; [lia | exact H0 | exact H8].
Qed.

Lemma script_main_disk (d : PyFile.disk) :
  script_main (ops := disk_ops) eisr d = main d.
Proof.
  unfold script_main, main. cbn [fbind fopen_w fwrite fclose disk_ops].
  unfold PyFile.bind at 1. unfold PyFile.bind at 6. unfold PyFile.open_w.
  rewrite (script_for_disk (range 32) (script_global_tag "isr.asm")).
  rewrite (script_for_disk (range 32) (script_isr_body eisr "isr.asm")).
  change (script_global_tag (ops := disk_ops) "isr.asm") with (global_tag "isr.asm").
  change (script_isr_body (ops := disk_ops) eisr "isr.asm") with (isr_body "isr.asm").
  reflexivity.
Qed.

(** X4 (what of [eisr] matters).  The stub loop tests [i not in eisr] only
    after the branches of 0 and 8 have ended their iteration, so a list
    that agrees with [eisr] on the indices 1 to 7 and 9 to 31 gives the same
    run: the entry 8 of [eisr] is never consulted. *)
Theorem eisr_consulted_outside_0_and_8 (es : list nat) (d : PyFile.disk) :
  (forall i, i < 32 -> i <> 0 -> i <> 8 -> existsb (Nat.eqb i) es = in_eisr i) ->
  script_main (ops := disk_ops) es d = main d.
Proof.
  intros H. rewrite <- script_main_disk. apply script_main_agree. exact H.
Qed.

Lemma eisr_consulted_outside_0_and_8_witness :
  script_main (ops := disk_ops) [10; 11; 12; 13; 14] PyFile.empty_disk
  = main PyFile.empty_disk.
Proof.
  apply (eisr_consulted_outside_0_and_8 [10; 11; 12; 13; 14] PyFile.empty_disk).
  intros i Hi H0 H8.
  do 32 (destruct i as [|i]; [first [reflexivity | contradiction] |]).
  lia.
Defined.

(** ** With file objects that can be closed *)

Section Strict.
Import PyStrict.

Variable f : string.

Lemma simulates_write (x : string) :
  simulates f (write f x) (PyFile.write f x).
Proof.
  intros w Hw. unfold write. rewrite Hw. reflexivity.
Qed.

Lemma simulates_ret : simulates f (ret tt) (PyFile.ret tt).
Proof.
  intros [fs op] _. reflexivity.
Qed.

Lemma simulates_seq (cs1 cs2 : IO unit) (cd1 cd2 : PyFile.IO unit) :
  simulates f cs1 cd1 -> simulates f cs2 cd2 ->
  simulates f (bind cs1 (fun _ => cs2)) (PyFile.bind cd1 (fun _ => cd2)).
Proof.
  intros H1 H2 w Hw. unfold bind. rewrite (H1 w Hw).
  rewrite H2 by exact Hw. simpl.
  unfold PyFile.exec, PyFile.bind. destruct (cd1 (files w)) as [u d1]. reflexivity.
Qed.

Lemma simulates_for {A : Type} (xs : list A)
      (bs : A -> IO unit) (bd : A -> PyFile.IO unit) :
  (forall x, simulates f (bs x) (bd x)) ->
  simulates f (script_for (ops := strict_ops) xs bs)
              (script_for (ops := disk_ops) xs bd).
Proof.
  intros H. induction xs as [|x xs IH].
  - apply simulates_ret.
  - simpl. apply simulates_seq; [apply H | exact IH].
Qed.

Lemma simulates_global_tag (i : nat) :
  simulates f (script_global_tag (ops := strict_ops) f i)
              (script_global_tag (ops := disk_ops) f i).
Proof.
  apply simulates_write.
Qed.

Lemma simulates_isr_body (es : list nat) (i : nat) :
  simulates f (script_isr_body (ops := strict_ops) es f i)
              (script_isr_body (ops := disk_ops) es f i).
Proof.
  unfold script_isr_body.
  destruct (Nat.eqb i 0); [| destruct (Nat.eqb i 8)];
    [ | | destruct (negb (existsb (Nat.eqb i) es)) ];
    repeat first [ apply simulates_seq | apply simulates_write
                 | apply simulates_ret ].
Qed.

End Strict.

Section Strict_run.
Import PyStrict.

Let path : string := "isr.asm".

Lemma closing_close : simulates_closing path (without path) (close path) (PyFile.close path).
Proof.
  intros w _. reflexivity.
Qed.

Lemma closing_seq (after : list string -> list string)
      (cs1 cs2 : IO unit) (cd1 cd2 : PyFile.IO unit) :
  simulates path cs1 cd1 -> simulates_closing path after cs2 cd2 ->
  simulates_closing path after (bind cs1 (fun _ => cs2))
                    (PyFile.bind cd1 (fun _ => cd2)).
Proof.
  intros H1 H2 w Hw. unfold bind. rewrite (H1 w Hw).
  rewrite H2 by exact Hw. simpl.
  unfold PyFile.exec, PyFile.bind. destruct (cd1 (files w)) as [u d1]. reflexivity.
Qed.

Lemma is_open_without (f g : string) (paths : list string) :
  existsb (String.eqb g) (without f paths)
  = negb (String.eqb g f) && existsb (String.eqb g) paths.
Proof.
  induction paths as [|x xs IH]; simpl.
  - now rewrite andb_false_r.
  - destruct (String.eqb x f) eqn:Exf; simpl; rewrite IH.
    + apply String.eqb_eq in Exf. subst x.
      destruct (String.eqb g f); reflexivity.
    + destruct (String.eqb g x) eqn:Egx; simpl.
      * apply String.eqb_eq in Egx. subst x. rewrite Exf. reflexivity.
      * reflexivity.
Qed.

(** The strict run, in one equation: it ends normally, acts on the disk as
    [main] does, and leaves no file object on [isr.asm] open. *)
Lemma strict_main (w : world) :
  script_main (ops := strict_ops) eisr w
  = (inr tt, {| files := PyFile.exec main (files w);
                opened := without path (opened w) |}).
Proof.
  assert (E : PyFile.exec main (files w)
              = PyFile.exec (script_main (ops := disk_ops) eisr) (files w))
    by exact (f_equal snd (eq_sym (script_main_disk (files w)))).
  rewrite E. clear E.
  unfold script_main. cbn [fbind fopen_w fwrite fclose strict_ops disk_ops].
  fold path.
  unfold bind at 1, open_w. unfold PyFile.exec at 1, PyFile.bind at 1, PyFile.open_w.
  cbn [snd].
  match goal with
  | |- ?cs ?w1 = (inr tt, {| files := snd (?cd ?d1); opened := _ |}) =>
      assert (S : simulates_closing path (without path) cs cd)
  end.
  { repeat first
      [ apply closing_close
      | apply closing_seq
      | apply simulates_write
      | apply (simulates_for path _ _ _ (simulates_global_tag path))
      | apply (simulates_for path _ _ _ (simulates_isr_body path eisr)) ]. }
  rewrite S.
  - cbn [files opened]. unfold without at 1. cbn [filter].
    unfold path at 1 2. rewrite String.eqb_refl. reflexivity.
  - unfold is_open. cbn [opened existsb]. now rewrite String.eqb_refl.
Qed.

End Strict_run.



(** ** Every stub, at any index *)

Lemma emitted_record_0 :
  emitted_record 0
  = [Comment " Divide by 0"; Cli; PushByte 0; PushByte 0;
     Other ["jmp_isr_common_stub"%string]].
Proof.
  vm_compute. reflexivity.
Qed.

Lemma emitted_record_8 :
  emitted_record 8
  = [Comment " Double Fault Exception"; Cli;
     Comment " We don't push a dummy error code since this interrupt comes with one";
     PushByte 0; Other ["jmp_isr_common_stub"%string]].
Proof.
  vm_compute. reflexivity.
Qed.

(** The three branches of the stub loop, by index. *)
Lemma index_cases (i : nat) : i = 0 \/ i = 8 \/ (i <> 0 /\ i <> 8).
Proof.
  lia.
Qed.

(** X6 (interrupts off first).  Whatever the index, the first executed line
    of a stub is [cli], and it is the only [cli]: every push comes after
    interrupts are disabled. *)
Theorem cli_comes_first (i : nat) :
  exists rest,
    instructions (emitted_record i) = Cli :: rest /\ ~ In Cli rest.
Proof.
  destruct (index_cases i) as [-> | [-> | [H0 H8]]].
  - rewrite emitted_record_0. eexists. split; [reflexivity |].
    simpl. intuition discriminate.
  - rewrite emitted_record_8. eexists. split; [reflexivity |].
    simpl. intuition discriminate.
  - rewrite (emitted_record_uniform i H0 H8). unfold uniform_record.
    destruct (in_eisr i); eexists; (split; [reflexivity |]);
      simpl; intuition discriminate.
Qed.

(** X7 (inventory of a stub).  Whatever the index [i], a line of its stub
    is a comment, the label [isr<i>], [cli], [push byte 0], [push byte i],
    [jmp isr_common_stub] or, in the stubs of 0 and 8 only, the lone word
    [jmp_isr_common_stub]: a stub pushes nothing but 0 and its index and
    jumps nowhere but to the dispatch routine. *)
Theorem stub_inventory (i : nat) (l : line) :
  In l (emitted_record i) ->
  (exists text, l = Comment text)
  \/ l = Label (handler_name i)
  \/ l = Cli
  \/ l = PushByte 0
  \/ l = PushByte i
  \/ l = Jmp common_stub
  \/ ((i = 0 \/ i = 8) /\ l = Other ["jmp_isr_common_stub"%string]).
Proof.
  destruct (index_cases i) as [-> | [-> | [H0 H8]]].
  - rewrite emitted_record_0. simpl.
    intros [H | [H | [H | [H | [H | []]]]]]; subst l; eauto 10.
  - rewrite emitted_record_8. simpl.
    intros [H | [H | [H | [H | [H | []]]]]]; subst l; eauto 10.
  - rewrite (emitted_record_uniform i H0 H8). unfold uniform_record.
    destruct (in_eisr i); simpl; intros H;
      repeat (destruct H as [H | H]; [subst l; tauto |]); contradiction.
Qed.

Lemma stub_inventory_witness :
  (exists text, PushByte 7 = Comment text)
  \/ PushByte 7 = Label (handler_name 7)
  \/ PushByte 7 = Cli
  \/ PushByte 7 = PushByte 0
  \/ PushByte 7 = PushByte 7
  \/ PushByte 7 = Jmp common_stub
  \/ ((7 = 0 \/ 7 = 8) /\ PushByte 7 = Other ["jmp_isr_common_stub"%string]).
Proof.
  apply (stub_inventory 7 (PushByte 7)).
  vm_compute. do 3 right. left. reflexivity.
Defined.

Lemma vector_push_literal (i : nat) :
  vector_push (emitted_record i) = Some (vector_literal i).
Proof.
  destruct (index_cases i) as [-> | [-> | [H0 H8]]].
  - rewrite emitted_record_0. reflexivity.
  - rewrite emitted_record_8. reflexivity.
  - rewrite (emitted_record_uniform i H0 H8).
    unfold vector_literal. apply Nat.eqb_neq in H8. rewrite H8.
    unfold uniform_record. destruct (in_eisr i); reflexivity.
Qed.

(** X8 (vector numbers).  The vector number a stub pushes tells the stubs
    apart, except that the stubs of 0 and 8 both push 0: two stubs push the
    same vector number exactly when they are the same stub or the stubs of
    0 and 8. *)
Theorem vector_number_collision (i j : nat) :
  vector_push (emitted_record i) = vector_push (emitted_record j)
  <-> (i = j \/ (i = 0 /\ j = 8) \/ (i = 8 /\ j = 0)).
Proof.
  rewrite !vector_push_literal. unfold vector_literal.
  destruct (Nat.eqb_spec i 8) as [Ei | Ei], (Nat.eqb_spec j 8) as [Ej | Ej];
    split; intros H; try injection H as H; try lia;
    f_equal; lia.
Qed.

(** ** Symbols of the document *)





(** X10 (handler names).  The name [isr<n>] gives back [n], for every
    natural number [n]; so distinct vectors never share a handler name. *)
Theorem handler_name_round_trip (n m : nat) :
  isr_index (handler_name n) = Some n
  /\ (handler_name n = handler_name m <-> n = m).
Proof.
  split; [apply isr_index_handler_name |].
  split; [apply handler_name_inj | now intros ->].
Qed.

(** ** Text and lines *)

Lemma stub_text_whole_lines (i : nat) :
  unlines (split_lines (stub_text i)) = stub_text i.
Proof.
  destruct (index_cases i) as [-> | [-> | [H0 H8]]].
  - vm_compute. reflexivity.
  - vm_compute. reflexivity.
  - rewrite (uniform_split_lines i H0 H8). symmetry.
    now apply uniform_stub_text.
Qed.

(** X11 (whole lines).  Every write ends its line: the text of a stub, at
    any index, and the whole document are the line-feed terminated lines
    they split into, so nothing of the bytes is lost by reading the file
    line by line. *)
Theorem text_is_whole_lines :
  (forall i : nat, unlines (split_lines (stub_text i)) = stub_text i)
  /\ unlines (split_lines output_document) = output_document.
Proof.
  split; [exact stub_text_whole_lines |].
  vm_compute. reflexivity.
Qed.

(** ** The failure the strict runtime has *)

(** A write through a closed file object raises and changes nothing. *)
Lemma strict_write_closed (f s : string) (w : PyStrict.world) :
  PyStrict.is_open f w = false ->
  PyStrict.write f s w = (inl (PyStrict.ClosedFile f), w).
Proof.
  intros H. unfold PyStrict.write. now rewrite H.
Qed.

(** After the run, one more write through the script's file object would
    raise: the script's own writes all come before its [close]. *)
Lemma strict_write_after_run (s : string) (w : PyStrict.world) :
  fst (PyStrict.bind (script_main (ops := strict_ops) eisr)
                     (fun _ => PyStrict.write "isr.asm" s) w)
  = inl (PyStrict.ClosedFile "isr.asm").
Proof.
  unfold PyStrict.bind. rewrite (strict_main w).
  rewrite strict_write_closed; [reflexivity |].
  unfold PyStrict.is_open. cbn [PyStrict.opened].
  rewrite is_open_without, String.eqb_refl. reflexivity.
Qed.
